(** * SQLar compression helpers

    A shallow embedding of [ext/misc/sqlar.c]: the SQL functions
    [sqlar_compress(X,#)] and [sqlar_uncompress(X,SZ)], in the configuration
    the file compiles to ([COMPRESS_ZLIB] is undefined, so the zstd branches
    of every [#ifdef] are the ones taken).

    The two C functions talk to three collaborators that are not part of the
    file: the SQLite value/result API, the SQLite allocator and libzstd.  The
    value API is modelled by what its accessors return, the allocator and the
    codec are parameters (type classes [Heap] and [Zstd]), and every call to
    them is recorded in a trace so that statements of the form "the codec is
    (not) invoked" can be made. *)

From Stdlib Require Import String ZArith List Bool Lia.
From Stdlib Require Import Strings.Byte.
Import ListNotations.
Local Open Scope Z_scope.

(** ** Machine integers *)

(** Conversion of an integer to the C type [int] (two's complement, 32 bits),
    as done implicitly when a [size_t] or [sqlite3_int64] is passed to
    [sqlite3_malloc(int)] and by [sqlite3_value_int]. *)
Definition to_int (x : Z) : Z := (x + 2 ^ 31) mod 2 ^ 32 - 2 ^ 31.

(** ** SQLite values, as seen through the accessors used by sqlar.c *)

Inductive datatype : Set :=
| SQLITE_INTEGER
| SQLITE_FLOAT
| SQLITE_TEXT
| SQLITE_BLOB
| SQLITE_NULL.

Definition datatype_eqb (a b : datatype) : bool :=
  match a, b with
  | SQLITE_INTEGER, SQLITE_INTEGER
  | SQLITE_FLOAT, SQLITE_FLOAT
  | SQLITE_TEXT, SQLITE_TEXT
  | SQLITE_BLOB, SQLITE_BLOB
  | SQLITE_NULL, SQLITE_NULL => true
  | _, _ => false
  end.

(** An [sqlite3_value] is opaque to the extension.  It is represented by the
    three observations sqlar.c makes of it: its storage class, the bytes
    [sqlite3_value_blob] exposes, and its 64-bit integer reading. *)
Record sqlite3_value : Set := mk_value {
  sqlite3_value_type : datatype;
  sqlite3_value_blob : list byte;
  sqlite3_value_int64 : Z
}.

(** [sqlite3_value_bytes] is the length of what [sqlite3_value_blob] exposes.
    SQLite keeps that below [2^31] (SQLITE_MAX_LENGTH), so it fits the C [int]
    the API returns and the [uLong] it is stored in. *)
Definition sqlite3_value_bytes (v : sqlite3_value) : Z :=
  Z.of_nat (length (sqlite3_value_blob v)).

(** [sqlite3_value_int] truncates the 64-bit reading to [int]. *)
Definition sqlite3_value_int (v : sqlite3_value) : Z :=
  to_int (sqlite3_value_int64 v).

(** ** Results and the trace of library calls *)

(** What a call leaves in its [sqlite3_context]. *)
Inductive sql_result : Set :=
| ResultValue (v : sqlite3_value)   (* sqlite3_result_value *)
| ResultBlob (b : list byte)        (* sqlite3_result_blob *)
| ResultErrorNomem                  (* sqlite3_result_error_nomem *)
| ResultError (msg : string).       (* sqlite3_result_error *)

(** Calls into the allocator and into libzstd, in program order. *)
Inductive call : Set :=
| Call_malloc (n : Z)
| Call_free (nonnull : bool)
| Call_compress (dstCapacity : Z) (src : list byte) (srcSize : Z) (lvl : Z)
| Call_decompress (dstCapacity : Z) (src : list byte) (srcSize : Z).

Record world : Set := mk_world {
  context : option sql_result;
  trace : list call
}.

Definition start : world := {| context := None; trace := [] |}.

(** A small state monad over [world]. *)
Definition M (A : Type) : Type := world -> A * world.

Definition ret {A : Type} (a : A) : M A := fun w => (a, w).

Definition bind {A B : Type} (m : M A) (k : A -> M B) : M B :=
  fun w => let (a, w') := m w in k a w'.

Declare Scope sqlar_scope.
Delimit Scope sqlar_scope with sqlar.
Notation "x <- m ;; k" := (bind m (fun x => k))
  (at level 61, m at next level, right associativity) : sqlar_scope.
Notation "m ;; k" := (bind m (fun _ => k))
  (at level 61, right associativity) : sqlar_scope.
Local Open Scope sqlar_scope.

Definition exec (m : M unit) : world := snd (m start).

Definition set_result (r : sql_result) : M unit :=
  fun w => (tt, {| context := Some r; trace := trace w |}).

Definition log {A : Type} (c : call) (a : A) : M A :=
  fun w => (a, {| context := context w; trace := trace w ++ [c] |}).

Definition sqlite3_result_value (v : sqlite3_value) : M unit :=
  set_result (ResultValue v).

Definition sqlite3_result_blob (b : list byte) : M unit :=
  set_result (ResultBlob b).

Definition sqlite3_result_error_nomem : M unit :=
  set_result ResultErrorNomem.

Definition sqlite3_result_error (msg : string) : M unit :=
  set_result (ResultError msg).

(** A call has failed when it left an error in its context. *)
Definition failed (w : world) : bool :=
  match context w with
  | Some ResultErrorNomem | Some (ResultError _) => true
  | _ => false
  end.

(** The bytes a successful call hands back to SQL. *)
Definition delivered (w : world) : option (list byte) :=
  match context w with
  | Some (ResultValue v) => Some (sqlite3_value_blob v)
  | Some (ResultBlob b) => Some b
  | _ => None
  end.

(** [carries r v]: the SQL value [v] is what result [r] becomes when it is
    passed on as an argument of another SQL function. *)
Definition carries (r : sql_result) (v : sqlite3_value) : Prop :=
  match r with
  | ResultValue v0 => v = v0
  | ResultBlob b => sqlite3_value_type v = SQLITE_BLOB /\ sqlite3_value_blob v = b
  | _ => False
  end.

(** ** The collaborators: allocator and codec *)

(** Return value of [ZSTD_compress] / [ZSTD_decompress]: either the bytes
    written to [dst] (their number is what the C function returns) or an
    error code, for which [ZSTD_isError] holds. *)
Inductive zstd_ret : Set :=
| ZSTD_ok (dst : list byte)
| ZSTD_error (code : Z).

Definition ZSTD_isError (r : zstd_ret) : bool :=
  match r with ZSTD_ok _ => false | ZSTD_error _ => true end.

Class Zstd : Type := {
  ZSTD_compressBound : Z -> Z;
  ZSTD_CLEVEL_DEFAULT : Z;
  ZSTD_maxCLevel : Z;
  (* dstCapacity, src, srcSize, compressionLevel *)
  codec_compress : Z -> list byte -> Z -> Z -> zstd_ret;
  (* dstCapacity, src, compressedSize *)
  codec_decompress : Z -> list byte -> Z -> zstd_ret
}.

(** [malloc_succeeds n]: whether [sqlite3_malloc(n)] returns a non-NULL
    pointer. *)
Class Heap : Type := {
  malloc_succeeds : Z -> bool
}.

(** zstd magic bytes: 28 b5 2f fd (same for all compression levels). *)
Definition ZSTD_MAGIC : list byte := [x28; xb5; x2f; xfd].
Definition MAGIC_ZSTD_0 : byte := x28.

Section Sqlar.
Context {codec : Zstd} {heap : Heap}.

Definition sqlite3_malloc (n : Z) : M bool :=
  log (Call_malloc n) (malloc_succeeds n).

Definition sqlite3_free (pOut : bool) : M unit :=
  log (Call_free pOut) tt.

Definition ZSTD_compress (dstCapacity : Z) (src : list byte) (srcSize lvl : Z)
  : M zstd_ret :=
  log (Call_compress dstCapacity src srcSize lvl)
      (codec_compress dstCapacity src srcSize lvl).

Definition ZSTD_decompress (dstCapacity : Z) (src : list byte) (srcSize : Z)
  : M zstd_ret :=
  log (Call_decompress dstCapacity src srcSize)
      (codec_decompress dstCapacity src srcSize).

(** Lines 71-74: the level handed to the codec. *)
Definition effective_level (lvl : Z) : Z :=
  if lvl =? -1 then ZSTD_CLEVEL_DEFAULT
  else if lvl >? ZSTD_maxCLevel then ZSTD_maxCLevel
  else lvl.

(** Implementation of the "sqlar_compress(X,#)" SQL function. *)
Definition sqlarCompressFunc (argv0 argv1 : sqlite3_value) : M unit :=
  if datatype_eqb (sqlite3_value_type argv0) SQLITE_BLOB then
    let pData := sqlite3_value_blob argv0 in
    let nData := sqlite3_value_bytes argv0 in
    let lvl := sqlite3_value_int argv1 in
    let nOut := ZSTD_compressBound nData in
    let lvl := effective_level lvl in
    pOut <- sqlite3_malloc (to_int nOut) ;;
    if negb pOut then
      sqlite3_result_error_nomem
    else
      r <- ZSTD_compress nOut pData nData lvl ;;
      match r with
      | ZSTD_error _ => sqlite3_result_error "error in compress()"
      | ZSTD_ok out =>
          let nOut := Z.of_nat (length out) in
          if (nOut <? nData) && negb (lvl =? 0) then sqlite3_result_blob out
          else sqlite3_result_value argv0
      end ;;
      sqlite3_free pOut
  else
    sqlite3_result_value argv0.

(** Implementation of the "sqlar_uncompress(X,SZ)" SQL function. *)
Definition sqlarUncompressFunc (argv0 argv1 : sqlite3_value) : M unit :=
  let sz := sqlite3_value_int argv1 in
  let nData := sqlite3_value_bytes argv0 in
  if (sz <=? 0) || (sz =? nData) then
    sqlite3_result_value argv0
  else
    let szf := sz in
    let pData := sqlite3_value_blob argv0 in
    pOut <- sqlite3_malloc (to_int sz) ;;
    (if negb pOut then
       sqlite3_result_error_nomem
     else if (nData <=? 4) || negb (Byte.eqb (nth 0 pData x00) MAGIC_ZSTD_0) then
       (* not in zstd format, copy as-is *)
       sqlite3_result_value argv0
     else
       r <- ZSTD_decompress szf pData nData ;;
       match r with
       | ZSTD_error _ => sqlite3_result_error "error in uncompress()"
       | ZSTD_ok out => sqlite3_result_blob out
       end) ;;
    sqlite3_free pOut.

(** Names for what the two functions hand to their collaborators: the size
    of the scratch buffer [sqlarCompressFunc] asks for and the codec call it
    makes for payload [P] and level argument [L]; the codec call
    [sqlarUncompressFunc] makes for payload [P] and declared size [SZ]. *)
Definition scratch (P : sqlite3_value) : Z :=
  to_int (ZSTD_compressBound (sqlite3_value_bytes P)).

Definition compressed (P L : sqlite3_value) : zstd_ret :=
  codec_compress (ZSTD_compressBound (sqlite3_value_bytes P))
    (sqlite3_value_blob P) (sqlite3_value_bytes P)
    (effective_level (sqlite3_value_int L)).

Definition compress_call (P L : sqlite3_value) : call :=
  Call_compress (ZSTD_compressBound (sqlite3_value_bytes P))
    (sqlite3_value_blob P) (sqlite3_value_bytes P)
    (effective_level (sqlite3_value_int L)).

Definition decompressed (P SZ : sqlite3_value) : zstd_ret :=
  codec_decompress (sqlite3_value_int SZ)
    (sqlite3_value_blob P) (sqlite3_value_bytes P).

Definition decompress_call (P SZ : sqlite3_value) : call :=
  Call_decompress (sqlite3_value_int SZ)
    (sqlite3_value_blob P) (sqlite3_value_bytes P).

(** The test of line 135 that lets a payload through to the codec. *)
Definition looks_compressed (P : sqlite3_value) : bool :=
  negb ((sqlite3_value_bytes P <=? 4)
        || negb (Byte.eqb (nth 0 (sqlite3_value_blob P) x00) MAGIC_ZSTD_0)).

End Sqlar.

(** ** Concrete collaborators

    A small run-length codec that frames its output the way zstd does (the
    four magic bytes, then a one-byte frame header), a codec whose compressor
    always reports an error, and two allocators.  They are used to evaluate
    the two SQL functions on concrete inputs. *)

Module Toy.

Definition byte_of_nat (n : nat) : byte :=
  match Byte.of_nat n with Some b => b | None => x00 end.

(** Runs are stored as a count byte (1..255) followed by the repeated byte. *)
Fixpoint rle (l : list byte) : list byte :=
  match l with
  | [] => []
  | b :: l' =>
      match rle l' with
      | cnt :: b' :: rs =>
          if Byte.eqb b b' && Nat.ltb (Byte.to_nat cnt) 255
          then byte_of_nat (S (Byte.to_nat cnt)) :: b' :: rs
          else x01 :: b :: cnt :: b' :: rs
      | _ => [x01; b]
      end
  end.

Fixpoint unrle (l : list byte) : list byte :=
  match l with
  | cnt :: b :: rs => repeat b (Byte.to_nat cnt) ++ unrle rs
  | _ => []
  end.

Fixpoint bytes_eqb (a b : list byte) : bool :=
  match a, b with
  | [], [] => true
  | x :: a', y :: b' => Byte.eqb x y && bytes_eqb a' b'
  | _, _ => false
  end.

Definition frame_header : list byte := ZSTD_MAGIC ++ [x00].

Definition compress (dstCapacity : Z) (src : list byte) (srcSize lvl : Z)
  : zstd_ret :=
  let frame := frame_header ++ rle src in
  if dstCapacity <? Z.of_nat (length frame) then ZSTD_error 70
  else ZSTD_ok frame.

Definition decompress (dstCapacity : Z) (src : list byte) (srcSize : Z)
  : zstd_ret :=
  if bytes_eqb (firstn 5 src) frame_header then
    let out := unrle (skipn 5 src) in
    if dstCapacity <? Z.of_nat (length out) then ZSTD_error 70
    else ZSTD_ok out
  else ZSTD_error 10.

Definition zstd : Zstd := {|
  ZSTD_compressBound := fun n => 2 * n + 5;
  ZSTD_CLEVEL_DEFAULT := 3;
  ZSTD_maxCLevel := 22;
  codec_compress := compress;
  codec_decompress := decompress
|}.

(** Same codec, but the compressor reports error 64 (memory allocation). *)
Definition broken : Zstd := {|
  ZSTD_compressBound := fun n => 2 * n + 5;
  ZSTD_CLEVEL_DEFAULT := 3;
  ZSTD_maxCLevel := 22;
  codec_compress := fun _ _ _ _ => ZSTD_error 64;
  codec_decompress := decompress
|}.

(** [sqlite3_malloc] returns NULL for a size that is zero or negative. *)
Definition roomy : Heap := {| malloc_succeeds := fun n => 0 <? n |}.
Definition exhausted : Heap := {| malloc_succeeds := fun _ => false |}.

Definition blob (b : list byte) : sqlite3_value :=
  {| sqlite3_value_type := SQLITE_BLOB;
     sqlite3_value_blob := b;
     sqlite3_value_int64 := 0 |}.

Definition integer (i : Z) : sqlite3_value :=
  {| sqlite3_value_type := SQLITE_INTEGER;
     sqlite3_value_blob := [];
     sqlite3_value_int64 := i |}.

(** Twenty times the letter "a". *)
Definition twenty_a : list byte := repeat x61 20.

(** Five bytes that start like a zstd frame but are not one. *)
Definition stray : list byte := [x28; x00; x00; x00; x00].

(** Six bytes that do not start with the magic byte. *)
Definition plain : list byte := [x01; x02; x03; x04; x05; x06].

(** The frame [compress] makes of [twenty_a]. *)
Definition twenty_a_frame : list byte := [x28; xb5; x2f; xfd; x00; x14; x61].

End Toy.

(** ** What sqlar.c relies on from libzstd

    The contract of the codec as zstd documents it: compressing into a buffer
    of [ZSTD_compressBound] bytes succeeds, a compressed frame starts with
    the magic number and is longer than it, and decompressing a frame into a
    buffer of the original size gives the original bytes back. *)
Class ZstdSound (codec : Zstd) : Prop := {
  maxCLevel_nonneg : 0 <= ZSTD_maxCLevel;
  compress_within_bound : forall src lvl,
    let n := Z.of_nat (length src) in
    exists dst, codec_compress (ZSTD_compressBound n) src n lvl = ZSTD_ok dst;
  compress_framed : forall cap src lvl dst,
    codec_compress cap src (Z.of_nat (length src)) lvl = ZSTD_ok dst ->
    4 < Z.of_nat (length dst) /\ firstn 4 dst = ZSTD_MAGIC;
  decompress_compress : forall cap src lvl dst,
    let n := Z.of_nat (length src) in
    codec_compress cap src n lvl = ZSTD_ok dst ->
    codec_decompress n dst (Z.of_nat (length dst)) = ZSTD_ok src
}.

(** ** Allocation discipline of a trace

    [balanced_from holding tr]: read from a state in which a buffer is
    ([holding = true]) or is not held, the trace [tr] allocates only when no
    buffer is held, calls the codec only while one is held, passes to
    [sqlite3_free] the pointer [sqlite3_malloc] returned (NULL exactly when
    the allocation failed), and ends with no buffer held. *)
Fixpoint balanced_from {heap : Heap} (holding : bool) (tr : list call) : bool :=
  match tr with
  | [] => negb holding
  | Call_malloc n :: tr' =>
      negb holding && balanced_from (malloc_succeeds n) tr'
  | Call_free nonnull :: tr' =>
      Bool.eqb nonnull holding && balanced_from false tr'
  | Call_compress _ _ _ _ :: tr' | Call_decompress _ _ _ :: tr' =>
      holding && balanced_from holding tr'
  end.

(** ** The extension entry point *)

(** The arguments of one [sqlite3_create_function] call: name, number of
    arguments, text encoding and flags, and the implementation ([xFunc]; the
    [pApp], [xStep] and [xFinal] arguments are 0 in both calls). *)
Record create_function_call : Type := mk_create_function {
  zFunctionName : string;
  nArg : Z;
  eTextRep : Z;
  xFunc : sqlite3_value -> sqlite3_value -> M unit
}.

(** What sqlite3.h provides to [sqlite3_sqlar_init]: the constants it names
    and the return code of each [sqlite3_create_function] call. *)
Class Sqlite3 : Type := {
  SQLITE_OK : Z;
  SQLITE_UTF8 : Z;
  SQLITE_INNOCUOUS : Z;
  create_function_rc : create_function_call -> Z
}.

Section Init.
Context {codec : Zstd} {heap : Heap} {api : Sqlite3}.

(** A call is appended to the list of registrations attempted on [db]. *)
Definition sqlite3_create_function (db : list create_function_call)
  (zFunctionName : string) (nArg eTextRep : Z)
  (xFunc : sqlite3_value -> sqlite3_value -> M unit)
  : Z * list create_function_call :=
  let c := mk_create_function zFunctionName nArg eTextRep xFunc in
  (create_function_rc c, db ++ [c]).

Definition sqlite3_sqlar_init (db : list create_function_call)
  : Z * list create_function_call :=
  let rc := SQLITE_OK in
  let (rc, db) :=
    sqlite3_create_function db "sqlar_compress" 2
      (Z.lor SQLITE_UTF8 SQLITE_INNOCUOUS) sqlarCompressFunc in
  if rc =? SQLITE_OK then
    sqlite3_create_function db "sqlar_uncompress" 2
      (Z.lor SQLITE_UTF8 SQLITE_INNOCUOUS) sqlarUncompressFunc
  else
    (rc, db).

(** The two registrations [sqlite3_sqlar_init] asks for. *)
Definition register_compress : create_function_call :=
  mk_create_function "sqlar_compress" 2
    (Z.lor SQLITE_UTF8 SQLITE_INNOCUOUS) sqlarCompressFunc.

Definition register_uncompress : create_function_call :=
  mk_create_function "sqlar_uncompress" 2
    (Z.lor SQLITE_UTF8 SQLITE_INNOCUOUS) sqlarUncompressFunc.

End Init.

(** A host whose [sqlite3_create_function] succeeds except for the names
    listed in [refused], for which it returns SQLITE_NOMEM (7). *)
Definition host (refused : list string) : Sqlite3 := {|
  SQLITE_OK := 0;
  SQLITE_UTF8 := 1;
  SQLITE_INNOCUOUS := 2097152;
  create_function_rc := fun c =>
    if existsb (String.eqb (zFunctionName c)) refused then 7 else 0
|}.

(** A text value: twenty times the letter "a". *)
Definition text_twenty_a : sqlite3_value :=
  {| sqlite3_value_type := SQLITE_TEXT;
     sqlite3_value_blob := Toy.twenty_a;
     sqlite3_value_int64 := 0 |}.

(** * Properties *)

Example toy_compress_twenty_a :
  exec (sqlarCompressFunc (codec := Toy.zstd) (heap := Toy.roomy)
          (Toy.blob Toy.twenty_a) (Toy.integer (-1)))
  = {| context := Some (ResultBlob [x28; xb5; x2f; xfd; x00; x14; x61]);
       trace := [Call_malloc 45; Call_compress 45 Toy.twenty_a 20 3;
                 Call_free true] |}.
Proof. reflexivity. Qed.

Example toy_uncompress_twenty_a :
  exec (sqlarUncompressFunc (codec := Toy.zstd) (heap := Toy.roomy)
          (Toy.blob [x28; xb5; x2f; xfd; x00; x14; x61]) (Toy.integer 20))
  = {| context := Some (ResultBlob Toy.twenty_a);
       trace := [Call_malloc 20;
                 Call_decompress 20 [x28; xb5; x2f; xfd; x00; x14; x61] 7;
                 Call_free true] |}.
Proof. reflexivity. Qed.

Example toy_uncompress_stray :
  exec (sqlarUncompressFunc (codec := Toy.zstd) (heap := Toy.roomy)
          (Toy.blob Toy.stray) (Toy.integer 10))
  = {| context := Some (ResultError "error in uncompress()");
       trace := [Call_malloc 10; Call_decompress 10 Toy.stray 5;
                 Call_free true] |}.
Proof. reflexivity. Qed.

(** ** Machine integers *)

Lemma to_int_small (x : Z) : - 2 ^ 31 <= x < 2 ^ 31 -> to_int x = x.
Proof.
  intros Hx. unfold to_int.
  rewrite Z.mod_small; lia.
Qed.

Lemma to_int_range (x : Z) : - 2 ^ 31 <= to_int x < 2 ^ 31.
Proof.
  unfold to_int.
  pose proof (Z.mod_pos_bound (x + 2 ^ 31) (2 ^ 32) ltac:(lia)).
  lia.
Qed.

Lemma to_int_idem (x : Z) : to_int (to_int x) = to_int x.
Proof. apply to_int_small, to_int_range. Qed.

Lemma to_int_value_int (v : sqlite3_value) :
  to_int (sqlite3_value_int v) = sqlite3_value_int v.
Proof. apply to_int_idem. Qed.

Lemma datatype_eqb_eq (a b : datatype) : datatype_eqb a b = true <-> a = b.
Proof. destruct a, b; simpl; split; intros H; congruence. Qed.

Lemma datatype_eqb_neq (a b : datatype) : datatype_eqb a b = false <-> a <> b.
Proof. destruct a, b; simpl; split; intros H; congruence. Qed.

Lemma sqlite3_value_bytes_nonneg (v : sqlite3_value) : 0 <= sqlite3_value_bytes v.
Proof. unfold sqlite3_value_bytes. lia. Qed.

(** ** The paths through the two functions *)

Section Paths.
Context {codec : Zstd} {heap : Heap}.
Implicit Types P L SZ : sqlite3_value.

Ltac run :=
  unfold exec, sqlarCompressFunc, sqlarUncompressFunc, bind,
    sqlite3_malloc, sqlite3_free, ZSTD_compress, ZSTD_decompress,
    sqlite3_result_value, sqlite3_result_blob, sqlite3_result_error,
    sqlite3_result_error_nomem, set_result, log, start; simpl.

Lemma compress_not_blob P L :
  sqlite3_value_type P <> SQLITE_BLOB ->
  exec (sqlarCompressFunc P L) =
  {| context := Some (ResultValue P); trace := [] |}.
Proof.
  intros Ht. apply datatype_eqb_neq in Ht.
  run. rewrite Ht. reflexivity.
Qed.

Lemma compress_nomem P L :
  sqlite3_value_type P = SQLITE_BLOB ->
  malloc_succeeds (scratch P) = false ->
  exec (sqlarCompressFunc P L) =
  {| context := Some ResultErrorNomem; trace := [Call_malloc (scratch P)] |}.
Proof.
  intros Ht Hm. apply datatype_eqb_eq in Ht. unfold scratch in *.
  run. rewrite Ht, Hm. reflexivity.
Qed.

Lemma compress_codec_error P L code :
  sqlite3_value_type P = SQLITE_BLOB ->
  malloc_succeeds (scratch P) = true ->
  compressed P L = ZSTD_error code ->
  exec (sqlarCompressFunc P L) =
  {| context := Some (ResultError "error in compress()");
     trace := [Call_malloc (scratch P); compress_call P L; Call_free true] |}.
Proof.
  intros Ht Hm Hc. apply datatype_eqb_eq in Ht.
  unfold scratch, compressed, compress_call in *.
  run. rewrite Ht, Hm. simpl. rewrite Hc. reflexivity.
Qed.

Lemma compress_codec_ok P L dst :
  sqlite3_value_type P = SQLITE_BLOB ->
  malloc_succeeds (scratch P) = true ->
  compressed P L = ZSTD_ok dst ->
  exec (sqlarCompressFunc P L) =
  {| context :=
       Some (if (Z.of_nat (length dst) <? sqlite3_value_bytes P)
                && negb (effective_level (sqlite3_value_int L) =? 0)
             then ResultBlob dst else ResultValue P);
     trace := [Call_malloc (scratch P); compress_call P L; Call_free true] |}.
Proof.
  intros Ht Hm Hc. apply datatype_eqb_eq in Ht.
  unfold scratch, compressed, compress_call in *.
  run. rewrite Ht, Hm. simpl. rewrite Hc.
  destruct (_ && _); reflexivity.
Qed.

Lemma uncompress_raw P SZ :
  sqlite3_value_int SZ <= 0 \/ sqlite3_value_int SZ = sqlite3_value_bytes P ->
  exec (sqlarUncompressFunc P SZ) =
  {| context := Some (ResultValue P); trace := [] |}.
Proof.
  intros H. run.
  replace ((sqlite3_value_int SZ <=? 0)
           || (sqlite3_value_int SZ =? sqlite3_value_bytes P)) with true.
  - reflexivity.
  - symmetry. apply orb_true_iff.
    destruct H; [left; apply Z.leb_le | right; apply Z.eqb_eq]; assumption.
Qed.

Lemma uncompress_guard P SZ :
  0 < sqlite3_value_int SZ ->
  sqlite3_value_int SZ <> sqlite3_value_bytes P ->
  (sqlite3_value_int SZ <=? 0)
  || (sqlite3_value_int SZ =? sqlite3_value_bytes P) = false.
Proof.
  intros Hpos Hne. apply orb_false_iff. split.
  - apply Z.leb_gt; assumption.
  - apply Z.eqb_neq; assumption.
Qed.

Lemma uncompress_nomem P SZ :
  0 < sqlite3_value_int SZ ->
  sqlite3_value_int SZ <> sqlite3_value_bytes P ->
  malloc_succeeds (sqlite3_value_int SZ) = false ->
  exec (sqlarUncompressFunc P SZ) =
  {| context := Some ResultErrorNomem;
     trace := [Call_malloc (sqlite3_value_int SZ); Call_free false] |}.
Proof.
  intros Hpos Hne Hm. run.
  rewrite (uncompress_guard P SZ Hpos Hne).
  rewrite !to_int_value_int, Hm. simpl. reflexivity.
Qed.

Lemma uncompress_not_zstd P SZ :
  0 < sqlite3_value_int SZ ->
  sqlite3_value_int SZ <> sqlite3_value_bytes P ->
  malloc_succeeds (sqlite3_value_int SZ) = true ->
  looks_compressed P = false ->
  exec (sqlarUncompressFunc P SZ) =
  {| context := Some (ResultValue P);
     trace := [Call_malloc (sqlite3_value_int SZ); Call_free true] |}.
Proof.
  intros Hpos Hne Hm Hl. run.
  rewrite (uncompress_guard P SZ Hpos Hne).
  rewrite !to_int_value_int, Hm. simpl.
  unfold looks_compressed in Hl. apply negb_false_iff in Hl.
  rewrite Hl. reflexivity.
Qed.

Lemma uncompress_zstd P SZ :
  0 < sqlite3_value_int SZ ->
  sqlite3_value_int SZ <> sqlite3_value_bytes P ->
  malloc_succeeds (sqlite3_value_int SZ) = true ->
  looks_compressed P = true ->
  exec (sqlarUncompressFunc P SZ) =
  {| context :=
       Some (match decompressed P SZ with
             | ZSTD_ok out => ResultBlob out
             | ZSTD_error _ => ResultError "error in uncompress()"
             end);
     trace := [Call_malloc (sqlite3_value_int SZ); decompress_call P SZ;
               Call_free true] |}.
Proof.
  intros Hpos Hne Hm Hl. run.
  rewrite (uncompress_guard P SZ Hpos Hne).
  rewrite !to_int_value_int, Hm. simpl.
  unfold looks_compressed in Hl. apply negb_true_iff in Hl.
  rewrite Hl. unfold decompressed, decompress_call.
  destruct (codec_decompress _ _ _); reflexivity.
Qed.

End Paths.

(** ** The run-length codec honours the codec contract *)

Lemma to_nat_byte_of_nat (n : nat) :
  (n <= 255)%nat -> Byte.to_nat (Toy.byte_of_nat n) = n.
Proof.
  intros Hn. unfold Toy.byte_of_nat.
  destruct (Byte.of_nat n) as [b|] eqn:E.
  - apply Byte.to_of_nat. exact E.
  - apply Byte.of_nat_None_iff in E. lia.
Qed.

Lemma unrle_rle (l : list byte) : Toy.unrle (Toy.rle l) = l.
Proof.
  induction l as [|b l IH]; [reflexivity|].
  cbn [Toy.rle].
  destruct (Toy.rle l) as [|cnt [|b' rs]] eqn:E.
  - cbn in IH. subst l. reflexivity.
  - cbn in IH. subst l. reflexivity.
  - destruct (Byte.eqb b b' && Nat.ltb (Byte.to_nat cnt) 255) eqn:C.
    + apply andb_true_iff in C as [Hb Hn].
      apply Byte.byte_dec_bl in Hb. apply Nat.ltb_lt in Hn. subst b'.
      cbn [Toy.unrle] in IH |- *.
      rewrite to_nat_byte_of_nat by lia.
      cbn [repeat app]. now rewrite IH.
    + cbn [Toy.unrle] in IH |- *.
      change (Byte.to_nat x01) with 1%nat.
      cbn [repeat app]. now rewrite IH.
Qed.

Lemma rle_length (l : list byte) :
  (length (Toy.rle l) <= 2 * length l)%nat.
Proof.
  induction l as [|b l IH]; [simpl; lia|].
  cbn [Toy.rle].
  destruct (Toy.rle l) as [|cnt [|b' rs]];
    [ | | destruct (Byte.eqb b b' && Nat.ltb (Byte.to_nat cnt) 255) ];
    cbn [length] in *; lia.
Qed.

Lemma bytes_eqb_refl (l : list byte) : Toy.bytes_eqb l l = true.
Proof.
  induction l as [|b l IH]; [reflexivity|].
  cbn [Toy.bytes_eqb]. rewrite IH, (Byte.byte_dec_lb (eq_refl b)). reflexivity.
Qed.

Lemma toy_compress_inv cap src n lvl dst :
  Toy.compress cap src n lvl = ZSTD_ok dst ->
  dst = Toy.frame_header ++ Toy.rle src.
Proof.
  unfold Toy.compress.
  destruct (cap <? _); intros H; [discriminate | now inversion H].
Qed.

#[export] Instance toy_sound : ZstdSound Toy.zstd.
Proof.
  constructor; cbv zeta;
    cbn [codec_compress codec_decompress ZSTD_compressBound ZSTD_maxCLevel
         Toy.zstd].
  - lia.
  - intros src lvl. eexists. unfold Toy.compress.
    replace (_ <? _) with false; [reflexivity|].
    symmetry. apply Z.ltb_ge.
    rewrite length_app. pose proof (rle_length src).
    change (length Toy.frame_header) with 5%nat. lia.
  - intros cap src lvl dst H. apply toy_compress_inv in H. subst dst.
    split; [|reflexivity].
    rewrite length_app. change (length Toy.frame_header) with 5%nat. lia.
  - intros cap src lvl dst H. apply toy_compress_inv in H. subst dst.
    unfold Toy.decompress.
    change (firstn 5 (Toy.frame_header ++ Toy.rle src)) with Toy.frame_header.
    change (skipn 5 (Toy.frame_header ++ Toy.rle src)) with (Toy.rle src).
    rewrite bytes_eqb_refl, unrle_rle.
    rewrite Z.ltb_irrefl. reflexivity.
Qed.

(** ** The decoder *)

Section Decoder.
Context {codec : Zstd} {heap : Heap}.
Implicit Types P SZ : sqlite3_value.

Lemma looks_compressed_true P :
  looks_compressed P = true <->
  4 < sqlite3_value_bytes P /\ nth 0 (sqlite3_value_blob P) x00 = MAGIC_ZSTD_0.
Proof.
  unfold looks_compressed.
  rewrite negb_true_iff, orb_false_iff, negb_false_iff, Z.leb_gt.
  split; intros [Hn Hb]; split; try assumption.
  - apply Byte.byte_dec_bl. assumption.
  - apply Byte.byte_dec_lb. assumption.
Qed.

Lemma looks_compressed_false P :
  looks_compressed P = false <->
  sqlite3_value_bytes P <= 4 \/ nth 0 (sqlite3_value_blob P) x00 <> MAGIC_ZSTD_0.
Proof.
  destruct (looks_compressed P) eqn:E.
  - apply looks_compressed_true in E. split; [discriminate|].
    intros [H|H]; [lia | tauto].
  - split; [|reflexivity]. intros _.
    destruct (Z_le_gt_dec (sqlite3_value_bytes P) 4) as [Hle|Hgt]; [now left|].
    right. intros Hb.
    assert (looks_compressed P = true) by (apply looks_compressed_true; split; [lia|assumption]).
    congruence.
Qed.

(** C5: for every payload [P], [sqlar_uncompress(P, SZ)] returns [P]
    unchanged whenever [SZ <= 0] or [SZ] equals the byte length of [P]; in
    these cases the trace of library calls is empty: no buffer is allocated
    and the decompression routine is not invoked. *)
Theorem uncompress_raw_passthrough P SZ :
  sqlite3_value_int SZ <= 0 \/ sqlite3_value_int SZ = sqlite3_value_bytes P ->
  let w := exec (sqlarUncompressFunc P SZ) in
  context w = Some (ResultValue P) /\ trace w = [].
Proof.
  intros H w. subst w. rewrite (uncompress_raw P SZ H). split; reflexivity.
Qed.

(** C10: for every payload [P] with declared size [SZ > 0] and
    [SZ <> len(P)], the first library call of [sqlar_uncompress] is the
    allocation of the [SZ]-byte output buffer; when that allocation fails the
    call ends in the out-of-memory error whatever the bytes of [P] are, so
    also for a payload without the magic prefix, which is returned unchanged
    when the allocation succeeds. *)
Theorem uncompress_allocates_before_signature P SZ :
  0 < sqlite3_value_int SZ ->
  sqlite3_value_int SZ <> sqlite3_value_bytes P ->
  let w := exec (sqlarUncompressFunc P SZ) in
  (exists rest, trace w = Call_malloc (sqlite3_value_int SZ) :: rest) /\
  (malloc_succeeds (sqlite3_value_int SZ) = false ->
   context w = Some ResultErrorNomem) /\
  (sqlite3_value_bytes P <= 4
   \/ nth 0 (sqlite3_value_blob P) x00 <> MAGIC_ZSTD_0 ->
   context w = Some (if malloc_succeeds (sqlite3_value_int SZ)
                     then ResultValue P else ResultErrorNomem)).
Proof.
  intros Hpos Hne w. subst w.
  rewrite <- looks_compressed_false.
  destruct (malloc_succeeds (sqlite3_value_int SZ)) eqn:Hm.
  - destruct (looks_compressed P) eqn:Hl.
    + rewrite (uncompress_zstd P SZ Hpos Hne Hm Hl). cbn [trace context].
      repeat split; [eexists; reflexivity | discriminate | discriminate].
    + rewrite (uncompress_not_zstd P SZ Hpos Hne Hm Hl). cbn [trace context].
      repeat split; [eexists; reflexivity | discriminate].
  - rewrite (uncompress_nomem P SZ Hpos Hne Hm). cbn [trace context].
    repeat split. eexists; reflexivity.
Qed.

(** C2 (as the code has it): for every call [sqlar_uncompress(P, N)] with
    [N > 0] and [N <> len(P)]: if [P] is at most four bytes long, or its
    first byte is not the first magic byte 0x28, the call returns [P]
    unchanged when the output buffer could be allocated and the
    out-of-memory error otherwise, so never the decompression error, and the
    decompression routine is not invoked; the decompression routine is
    invoked only for payloads longer than four bytes whose first byte is
    0x28. *)
Theorem uncompress_signature_tolerance P SZ :
  0 < sqlite3_value_int SZ ->
  sqlite3_value_int SZ <> sqlite3_value_bytes P ->
  let w := exec (sqlarUncompressFunc P SZ) in
  (sqlite3_value_bytes P <= 4
   \/ nth 0 (sqlite3_value_blob P) x00 <> MAGIC_ZSTD_0 ->
   context w = Some (if malloc_succeeds (sqlite3_value_int SZ)
                     then ResultValue P else ResultErrorNomem)
   /\ forall cap src n, ~ In (Call_decompress cap src n) (trace w)) /\
  ((exists cap src n, In (Call_decompress cap src n) (trace w)) ->
   4 < sqlite3_value_bytes P
   /\ nth 0 (sqlite3_value_blob P) x00 = MAGIC_ZSTD_0).
Proof.
  intros Hpos Hne w. subst w.
  destruct (malloc_succeeds (sqlite3_value_int SZ)) eqn:Hm.
  - destruct (looks_compressed P) eqn:Hl.
    + pose proof (proj1 (looks_compressed_true P) Hl) as [Hn Hb].
      split; [intros [H|H]; [lia | contradiction] | intros _; now split].
    + rewrite (uncompress_not_zstd P SZ Hpos Hne Hm Hl). cbn [trace context].
      split.
      * intros _. split; [reflexivity|].
        intros cap src n [H|[H|[]]]; discriminate.
      * intros (cap & src & n & [H|[H|[]]]); discriminate.
  - rewrite (uncompress_nomem P SZ Hpos Hne Hm). cbn [trace context].
    split.
    + intros _. split; [reflexivity|].
      intros cap src n [H|[H|[]]]; discriminate.
    + intros (cap & src & n & [H|[H|[]]]); discriminate.
Qed.

End Decoder.

(** ** The encoder *)

Section Encoder.
Context {codec : Zstd} {heap : Heap}.
Implicit Types P L SZ : sqlite3_value.

Lemma effective_level_default : effective_level (-1) = ZSTD_CLEVEL_DEFAULT.
Proof. reflexivity. Qed.

Lemma effective_level_above (lvl : Z) :
  0 <= ZSTD_maxCLevel -> ZSTD_maxCLevel < lvl ->
  effective_level lvl = ZSTD_maxCLevel.
Proof.
  intros Hmax Hlvl. unfold effective_level.
  destruct (Z.eqb_spec lvl (-1)); [lia|].
  destruct (Z.gtb_spec lvl ZSTD_maxCLevel); [reflexivity | lia].
Qed.

Lemma effective_level_within (lvl : Z) :
  lvl <> -1 -> lvl <= ZSTD_maxCLevel -> effective_level lvl = lvl.
Proof.
  intros Hne Hle. unfold effective_level.
  destruct (Z.eqb_spec lvl (-1)); [contradiction|].
  destruct (Z.gtb_spec lvl ZSTD_maxCLevel); [lia | reflexivity].
Qed.

(** The encoder fails exactly when it is given a blob and either the scratch
    buffer cannot be allocated or the codec reports an error. *)
Lemma compress_failed_iff P L :
  failed (exec (sqlarCompressFunc P L)) = true <->
  sqlite3_value_type P = SQLITE_BLOB
  /\ (malloc_succeeds (scratch P) = false
      \/ exists code, compressed P L = ZSTD_error code).
Proof.
  destruct (datatype_eqb (sqlite3_value_type P) SQLITE_BLOB) eqn:Ht.
  - apply datatype_eqb_eq in Ht.
    destruct (malloc_succeeds (scratch P)) eqn:Hm.
    + destruct (compressed P L) as [dst|code] eqn:Hc.
      * rewrite (compress_codec_ok P L dst Ht Hm Hc). unfold failed; cbn [context].
        split.
        -- destruct (_ && _); discriminate.
        -- intros [_ [H|[code H]]]; discriminate.
      * rewrite (compress_codec_error P L code Ht Hm Hc).
        split; [intros _ | reflexivity].
        split; [assumption | right; now exists code].
    + rewrite (compress_nomem P L Ht Hm).
      split; [intros _ | reflexivity]. split; [assumption | now left].
  - apply datatype_eqb_neq in Ht. rewrite (compress_not_blob P L Ht).
    split; [discriminate | intros [H _]; contradiction].
Qed.

(** A call at an effective level of 0, or whose input has no bytes, returns
    its argument whenever it does not fail. *)
Lemma compress_keeps_argument P L :
  effective_level (sqlite3_value_int L) = 0 \/ sqlite3_value_blob P = [] ->
  failed (exec (sqlarCompressFunc P L)) = false ->
  exec (sqlarCompressFunc P L) =
  {| context := Some (ResultValue P);
     trace := if datatype_eqb (sqlite3_value_type P) SQLITE_BLOB
              then [Call_malloc (scratch P); compress_call P L; Call_free true]
              else [] |}.
Proof.
  intros Hkeep.
  destruct (datatype_eqb (sqlite3_value_type P) SQLITE_BLOB) eqn:Ht.
  - apply datatype_eqb_eq in Ht.
    destruct (malloc_succeeds (scratch P)) eqn:Hm.
    + destruct (compressed P L) as [dst|code] eqn:Hc.
      * rewrite (compress_codec_ok P L dst Ht Hm Hc). intros _.
        replace ((Z.of_nat (length dst) <? sqlite3_value_bytes P)
                 && negb (effective_level (sqlite3_value_int L) =? 0))
          with false; [reflexivity|].
        symmetry. apply andb_false_iff.
        destruct Hkeep as [H0|Hnil].
        -- right. rewrite H0. reflexivity.
        -- left. unfold sqlite3_value_bytes. rewrite Hnil. simpl.
           apply Z.ltb_ge. lia.
      * rewrite (compress_codec_error P L code Ht Hm Hc). discriminate.
    + rewrite (compress_nomem P L Ht Hm). discriminate.
  - apply datatype_eqb_neq in Ht. rewrite (compress_not_blob P L Ht).
    reflexivity.
Qed.

(** C3: for every blob payload [P] whose compression succeeds (the scratch
    buffer was allocated and the codec returned [dst]), [sqlar_compress]
    returns the compressed buffer if and only if the compressed length is
    strictly smaller than [len(P)] and the effective level is not 0;
    otherwise it returns [P] unchanged. *)
Theorem compress_decision_rule P L dst :
  sqlite3_value_type P = SQLITE_BLOB ->
  malloc_succeeds (scratch P) = true ->
  compressed P L = ZSTD_ok dst ->
  let w := exec (sqlarCompressFunc P L) in
  let smaller :=
    Z.of_nat (length dst) < sqlite3_value_bytes P
    /\ effective_level (sqlite3_value_int L) <> 0 in
  (context w = Some (ResultBlob dst) <-> smaller) /\
  (~ smaller -> context w = Some (ResultValue P)).
Proof.
  intros Ht Hm Hc w smaller. subst w smaller.
  rewrite (compress_codec_ok P L dst Ht Hm Hc). cbn [context].
  destruct (Z.ltb_spec (Z.of_nat (length dst)) (sqlite3_value_bytes P)) as [Hlt|Hge];
    destruct (Z.eqb_spec (effective_level (sqlite3_value_int L)) 0) as [H0|H0];
    cbn [andb negb]; (split; [split|]);
    try (intros H; discriminate H); try tauto; try lia.
Qed.

(** C4: for every payload [P], [sqlar_compress(P, 0)] returns [P] unchanged
    whenever the call does not fail, whatever the codec made of [P]; the
    call fails only when [P] is a blob and the allocator or the codec
    reported an error. *)
Theorem compress_level0_stores P L :
  0 <= ZSTD_maxCLevel ->
  sqlite3_value_int L = 0 ->
  let w := exec (sqlarCompressFunc P L) in
  (failed w = false -> context w = Some (ResultValue P)) /\
  (failed w = true ->
   sqlite3_value_type P = SQLITE_BLOB
   /\ (malloc_succeeds (scratch P) = false
       \/ exists code, compressed P L = ZSTD_error code)).
Proof.
  intros Hmax HL w. subst w. split.
  - intros Hok. rewrite compress_keeps_argument; [reflexivity | | assumption].
    left. rewrite HL. apply effective_level_within; lia.
  - apply compress_failed_iff.
Qed.

(** C6: for every payload [P] and every level [L] strictly above the codec's
    maximum level, [sqlar_compress(P, L)] leaves the same result and makes
    the same library calls as [sqlar_compress(P, Lmax)]; and for the level
    -1 ("use default") the codec is called with its default level. *)
Theorem compress_level_normalisation P L L' :
  0 <= ZSTD_maxCLevel ->
  (ZSTD_maxCLevel < sqlite3_value_int L ->
   sqlite3_value_int L' = ZSTD_maxCLevel ->
   exec (sqlarCompressFunc P L) = exec (sqlarCompressFunc P L')) /\
  (sqlite3_value_int L = -1 ->
   sqlite3_value_type P = SQLITE_BLOB ->
   malloc_succeeds (scratch P) = true ->
   trace (exec (sqlarCompressFunc P L)) =
   [Call_malloc (scratch P);
    Call_compress (ZSTD_compressBound (sqlite3_value_bytes P))
      (sqlite3_value_blob P) (sqlite3_value_bytes P) ZSTD_CLEVEL_DEFAULT;
    Call_free true]).
Proof.
  intros Hmax. split.
  - intros HL HL'.
    unfold exec, sqlarCompressFunc.
    rewrite HL', (effective_level_above _ Hmax HL).
    rewrite (effective_level_within ZSTD_maxCLevel) by lia.
    reflexivity.
  - intros HL Ht Hm.
    destruct (compressed P L) as [dst|code] eqn:Hc.
    + rewrite (compress_codec_ok P L dst Ht Hm Hc). cbn [trace].
      unfold compress_call. now rewrite HL.
    + rewrite (compress_codec_error P L code Ht Hm Hc). cbn [trace].
      unfold compress_call. now rewrite HL.
Qed.

(** C7: for every blob payload, if the codec's compression routine reports
    an error, [sqlar_compress] leaves the error "error in compress()" in its
    context and hands back no bytes. *)
Theorem compress_error_is_surfaced P L code :
  sqlite3_value_type P = SQLITE_BLOB ->
  malloc_succeeds (scratch P) = true ->
  compressed P L = ZSTD_error code ->
  let w := exec (sqlarCompressFunc P L) in
  context w = Some (ResultError "error in compress()")
  /\ failed w = true /\ delivered w = None.
Proof.
  intros Ht Hm Hc w. subst w.
  rewrite (compress_codec_error P L code Ht Hm Hc).
  repeat split.
Qed.

(** C8: for a payload [P] without bytes, [sqlar_compress(P, L)] returns [P]
    unchanged for every level [L] whenever the call does not fail (it fails
    only when [P] is a blob and the allocator or the codec reported an
    error), and [sqlar_uncompress(P, 0)] returns [P] unchanged without any
    library call. *)
Theorem empty_payload_passthrough P L SZ :
  sqlite3_value_blob P = [] ->
  sqlite3_value_int SZ = 0 ->
  let w := exec (sqlarCompressFunc P L) in
  (failed w = false -> context w = Some (ResultValue P)) /\
  (failed w = true ->
   sqlite3_value_type P = SQLITE_BLOB
   /\ (malloc_succeeds (scratch P) = false
       \/ exists code, compressed P L = ZSTD_error code)) /\
  exec (sqlarUncompressFunc P SZ) =
  {| context := Some (ResultValue P); trace := [] |}.
Proof.
  intros Hnil HSZ w. subst w. split; [|split].
  - intros Hok. rewrite compress_keeps_argument; [reflexivity | | assumption].
    now right.
  - apply compress_failed_iff.
  - apply uncompress_raw. left. lia.
Qed.

(** C9: for every blob payload [P], [sqlar_compress(P, 0)] calls the codec's
    compression routine (at level 0) once the scratch buffer is allocated;
    when the codec reports an error the call ends in the error
    "error in compress()", and when the codec succeeds the call returns [P]
    unchanged. *)
Theorem compress_level0_still_runs_codec P L :
  0 <= ZSTD_maxCLevel ->
  sqlite3_value_type P = SQLITE_BLOB ->
  sqlite3_value_int L = 0 ->
  malloc_succeeds (scratch P) = true ->
  let w := exec (sqlarCompressFunc P L) in
  let r := codec_compress (ZSTD_compressBound (sqlite3_value_bytes P))
             (sqlite3_value_blob P) (sqlite3_value_bytes P) 0 in
  trace w =
    [Call_malloc (scratch P);
     Call_compress (ZSTD_compressBound (sqlite3_value_bytes P))
       (sqlite3_value_blob P) (sqlite3_value_bytes P) 0;
     Call_free true]
  /\ (ZSTD_isError r = true ->
      context w = Some (ResultError "error in compress()"))
  /\ (ZSTD_isError r = false -> context w = Some (ResultValue P)).
Proof.
  intros Hmax Ht HL Hm w r. subst w r.
  assert (Hlvl : effective_level (sqlite3_value_int L) = 0).
  { rewrite HL. apply effective_level_within; lia. }
  assert (Hr : compressed P L =
               codec_compress (ZSTD_compressBound (sqlite3_value_bytes P))
                 (sqlite3_value_blob P) (sqlite3_value_bytes P) 0).
  { unfold compressed. now rewrite Hlvl. }
  rewrite <- Hr.
  destruct (compressed P L) as [dst|code] eqn:Hc.
  - rewrite (compress_codec_ok P L dst Ht Hm Hc). cbn [trace context].
    unfold compress_call. rewrite Hlvl, andb_false_r.
    repeat split. discriminate.
  - rewrite (compress_codec_error P L code Ht Hm Hc). cbn [trace context].
    unfold compress_call. rewrite Hlvl.
    repeat split. discriminate.
Qed.

End Encoder.

(** ** Round trip *)

Lemma magic_first_byte (dst : list byte) :
  firstn 4 dst = ZSTD_MAGIC -> nth 0 dst x00 = MAGIC_ZSTD_0.
Proof.
  destruct dst as [|b dst]; cbn [firstn]; intros H.
  - discriminate H.
  - now inversion H.
Qed.

(** C1: with a codec that honours the zstd contract, for every non-empty
    blob [P] and every level [L]: if the allocator grants the encoder's
    scratch buffer and the decoder's output buffer, [sqlar_compress(P, L)]
    returns a value, and [sqlar_uncompress] of that value with declared size
    [len(P)] hands back exactly the bytes of [P]. *)
Theorem sqlar_roundtrip {codec : Zstd} {heap : Heap} (sound : ZstdSound codec)
  (P L SZ : sqlite3_value) :
  sqlite3_value_type P = SQLITE_BLOB ->
  sqlite3_value_blob P <> [] ->
  sqlite3_value_int SZ = sqlite3_value_bytes P ->
  malloc_succeeds (scratch P) = true ->
  malloc_succeeds (sqlite3_value_int SZ) = true ->
  exists r,
    context (exec (sqlarCompressFunc P L)) = Some r
    /\ (exists E, carries r E)
    /\ forall E, carries r E ->
         delivered (exec (sqlarUncompressFunc E SZ))
         = Some (sqlite3_value_blob P).
Proof.
  intros Ht Hne HSZ Hm1 Hm2.
  destruct (compress_within_bound (sqlite3_value_blob P)
              (effective_level (sqlite3_value_int L))) as [dst Hc].
  fold (sqlite3_value_bytes P) in Hc. fold (compressed P L) in Hc.
  rewrite (compress_codec_ok P L dst Ht Hm1 Hc). cbn [context].
  destruct ((Z.of_nat (length dst) <? sqlite3_value_bytes P)
            && negb (effective_level (sqlite3_value_int L) =? 0)) eqn:Hsmall.
  - (* the compressed frame is returned *)
    apply andb_true_iff in Hsmall as [Hlt _]. apply Z.ltb_lt in Hlt.
    destruct (compress_framed _ _ _ _ Hc) as [Hlen Hmagic].
    pose proof (decompress_compress _ _ _ _ Hc) as Hinv. cbv zeta in Hinv.
    fold (sqlite3_value_bytes P) in Hinv.
    exists (ResultBlob dst). split; [reflexivity|]. split.
    + exists {| sqlite3_value_type := SQLITE_BLOB;
                sqlite3_value_blob := dst;
                sqlite3_value_int64 := 0 |}.
      split; reflexivity.
    + intros E [HtE HbE].
      assert (HnE : sqlite3_value_bytes E = Z.of_nat (length dst))
        by (unfold sqlite3_value_bytes; now rewrite HbE).
      rewrite uncompress_zstd.
      * unfold delivered, decompressed; cbn [context].
        now rewrite HSZ, HbE, HnE, Hinv.
      * pose proof (sqlite3_value_bytes_nonneg E). lia.
      * lia.
      * assumption.
      * apply looks_compressed_true. rewrite HbE, HnE.
        split; [assumption | now apply magic_first_byte].
  - (* the argument is returned as it is *)
    exists (ResultValue P). split; [reflexivity|]. split.
    + exists P. reflexivity.
    + intros E HE. cbn [carries] in HE. subst E.
      rewrite uncompress_raw by (now right). reflexivity.
Qed.

(** ** The theorems at concrete inputs *)

Ltac concrete := vm_compute; first [reflexivity | easy].

Lemma sqlar_roundtrip_witness :
  sqlite3_value_type (Toy.blob Toy.twenty_a) = SQLITE_BLOB
  /\ sqlite3_value_blob (Toy.blob Toy.twenty_a) <> []
  /\ sqlite3_value_int (Toy.integer 20)
     = sqlite3_value_bytes (Toy.blob Toy.twenty_a)
  /\ exists r,
       context (exec (@sqlarCompressFunc Toy.zstd Toy.roomy
                        (Toy.blob Toy.twenty_a) (Toy.integer 3))) = Some r
       /\ (exists E, carries r E)
       /\ forall E, carries r E ->
            delivered (exec (@sqlarUncompressFunc Toy.zstd Toy.roomy
                               E (Toy.integer 20)))
            = Some Toy.twenty_a.
Proof.
  split; [concrete|]. split; [concrete|]. split; [concrete|].
  apply (@sqlar_roundtrip Toy.zstd Toy.roomy toy_sound
           (Toy.blob Toy.twenty_a) (Toy.integer 3) (Toy.integer 20));
    concrete.
Defined.

Lemma uncompress_signature_tolerance_witness :
  0 < sqlite3_value_int (Toy.integer 10)
  /\ sqlite3_value_int (Toy.integer 10)
     <> sqlite3_value_bytes (Toy.blob Toy.plain)
  /\ nth 0 (sqlite3_value_blob (Toy.blob Toy.plain)) x00 <> MAGIC_ZSTD_0
  /\ context (exec (@sqlarUncompressFunc Toy.zstd Toy.roomy
                      (Toy.blob Toy.plain) (Toy.integer 10)))
     = Some (ResultValue (Toy.blob Toy.plain)).
Proof.
  split; [concrete|]. split; [concrete|]. split; [concrete|].
  refine (proj1 (proj1 (@uncompress_signature_tolerance Toy.zstd Toy.roomy
                          (Toy.blob Toy.plain) (Toy.integer 10) _ _) _)).
  - concrete.
  - concrete.
  - right. concrete.
Defined.

Lemma compress_decision_rule_witness :
  @compressed Toy.zstd (Toy.blob Toy.twenty_a) (Toy.integer 3)
  = ZSTD_ok Toy.twenty_a_frame
  /\ context (exec (@sqlarCompressFunc Toy.zstd Toy.roomy
                      (Toy.blob Toy.twenty_a) (Toy.integer 3)))
     = Some (ResultBlob Toy.twenty_a_frame).
Proof.
  split; [concrete|].
  refine (proj2 (proj1 (@compress_decision_rule Toy.zstd Toy.roomy
                          (Toy.blob Toy.twenty_a) (Toy.integer 3)
                          Toy.twenty_a_frame _ _ _)) _).
  - concrete.
  - concrete.
  - concrete.
  - split; concrete.
Defined.

Lemma compress_level0_stores_witness :
  sqlite3_value_int (Toy.integer 0) = 0
  /\ context (exec (@sqlarCompressFunc Toy.zstd Toy.roomy
                      (Toy.blob Toy.twenty_a) (Toy.integer 0)))
     = Some (ResultValue (Toy.blob Toy.twenty_a)).
Proof.
  split; [concrete|].
  refine (proj1 (@compress_level0_stores Toy.zstd Toy.roomy
                   (Toy.blob Toy.twenty_a) (Toy.integer 0) _ _) _);
    concrete.
Defined.

Lemma uncompress_raw_passthrough_witness :
  (sqlite3_value_int (Toy.integer (-5)) <= 0
   /\ context (exec (@sqlarUncompressFunc Toy.zstd Toy.roomy
                       (Toy.blob Toy.twenty_a_frame) (Toy.integer (-5))))
      = Some (ResultValue (Toy.blob Toy.twenty_a_frame)))
  /\ (sqlite3_value_int (Toy.integer 7)
      = sqlite3_value_bytes (Toy.blob Toy.twenty_a_frame)
      /\ trace (exec (@sqlarUncompressFunc Toy.zstd Toy.roomy
                        (Toy.blob Toy.twenty_a_frame) (Toy.integer 7)))
         = []).
Proof.
  split; (split; [concrete|]).
  - refine (proj1 (@uncompress_raw_passthrough Toy.zstd Toy.roomy
                     (Toy.blob Toy.twenty_a_frame) (Toy.integer (-5)) _)).
    left. concrete.
  - refine (proj2 (@uncompress_raw_passthrough Toy.zstd Toy.roomy
                     (Toy.blob Toy.twenty_a_frame) (Toy.integer 7) _)).
    right. concrete.
Defined.

Lemma compress_level_normalisation_witness :
  @ZSTD_maxCLevel Toy.zstd < sqlite3_value_int (Toy.integer 100)
  /\ sqlite3_value_int (Toy.integer 22) = @ZSTD_maxCLevel Toy.zstd
  /\ exec (@sqlarCompressFunc Toy.zstd Toy.roomy
             (Toy.blob Toy.twenty_a) (Toy.integer 100))
     = exec (@sqlarCompressFunc Toy.zstd Toy.roomy
               (Toy.blob Toy.twenty_a) (Toy.integer 22)).
Proof.
  split; [concrete|]. split; [concrete|].
  refine (proj1 (@compress_level_normalisation Toy.zstd Toy.roomy
                   (Toy.blob Toy.twenty_a) (Toy.integer 100) (Toy.integer 22)
                   _) _ _);
    concrete.
Defined.

Lemma compress_error_is_surfaced_witness :
  @compressed Toy.broken (Toy.blob Toy.twenty_a) (Toy.integer 3)
  = ZSTD_error 64
  /\ context (exec (@sqlarCompressFunc Toy.broken Toy.roomy
                      (Toy.blob Toy.twenty_a) (Toy.integer 3)))
     = Some (ResultError "error in compress()").
Proof.
  split; [concrete|].
  refine (proj1 (@compress_error_is_surfaced Toy.broken Toy.roomy
                   (Toy.blob Toy.twenty_a) (Toy.integer 3) 64 _ _ _));
    concrete.
Defined.

Lemma empty_payload_passthrough_witness :
  sqlite3_value_blob (Toy.blob []) = []
  /\ sqlite3_value_int (Toy.integer 0) = 0
  /\ context (exec (@sqlarCompressFunc Toy.zstd Toy.roomy
                      (Toy.blob []) (Toy.integer 5)))
     = Some (ResultValue (Toy.blob []))
  /\ exec (@sqlarUncompressFunc Toy.zstd Toy.roomy
             (Toy.blob []) (Toy.integer 0))
     = {| context := Some (ResultValue (Toy.blob [])); trace := [] |}.
Proof.
  split; [concrete|]. split; [concrete|].
  pose proof (@empty_payload_passthrough Toy.zstd Toy.roomy
                (Toy.blob []) (Toy.integer 5) (Toy.integer 0)
                eq_refl eq_refl) as [Henc [_ Hdec]].
  split; [apply Henc; concrete | exact Hdec].
Defined.

Lemma compress_level0_still_runs_codec_witness :
  sqlite3_value_int (Toy.integer 0) = 0
  /\ In (Call_compress 45 Toy.twenty_a 20 0)
        (trace (exec (@sqlarCompressFunc Toy.broken Toy.roomy
                        (Toy.blob Toy.twenty_a) (Toy.integer 0))))
  /\ context (exec (@sqlarCompressFunc Toy.broken Toy.roomy
                      (Toy.blob Toy.twenty_a) (Toy.integer 0)))
     = Some (ResultError "error in compress()").
Proof.
  split; [concrete|].
  pose proof (@compress_level0_still_runs_codec Toy.broken Toy.roomy
                (Toy.blob Toy.twenty_a) (Toy.integer 0)) as H.
  cbv zeta in H.
  destruct H as [Htrace [Herr _]]; try concrete.
  split.
  - rewrite Htrace. right. left. concrete.
  - apply Herr. concrete.
Defined.

Lemma uncompress_allocates_before_signature_witness :
  0 < sqlite3_value_int (Toy.integer 10)
  /\ sqlite3_value_int (Toy.integer 10)
     <> sqlite3_value_bytes (Toy.blob Toy.plain)
  /\ nth 0 (sqlite3_value_blob (Toy.blob Toy.plain)) x00 <> MAGIC_ZSTD_0
  /\ context (exec (@sqlarUncompressFunc Toy.zstd Toy.exhausted
                      (Toy.blob Toy.plain) (Toy.integer 10)))
     = Some ResultErrorNomem.
Proof.
  split; [concrete|]. split; [concrete|]. split; [concrete|].
  refine (proj1 (proj2 (@uncompress_allocates_before_signature
                          Toy.zstd Toy.exhausted
                          (Toy.blob Toy.plain) (Toy.integer 10) _ _)) _);
    concrete.
Defined.

(** ** Where the decoder departs from a full-magic check *)

(** C2 as stated fails: the payload 28 00 00 00 00 with declared size 10 is
    longer than the signature and does not start with the magic bytes
    28 b5 2f fd, yet it is handed to the decompression routine (its first
    byte alone is compared), and the call ends in the decompression error
    instead of returning the payload. *)
Lemma uncompress_partial_magic_counterexample :
  0 < sqlite3_value_int (Toy.integer 10)
  /\ sqlite3_value_int (Toy.integer 10)
     <> sqlite3_value_bytes (Toy.blob Toy.stray)
  /\ firstn 4 (sqlite3_value_blob (Toy.blob Toy.stray)) <> ZSTD_MAGIC
  /\ exec (@sqlarUncompressFunc Toy.zstd Toy.roomy
             (Toy.blob Toy.stray) (Toy.integer 10))
     = {| context := Some (ResultError "error in uncompress()");
          trace := [Call_malloc 10; Call_decompress 10 Toy.stray 5;
                    Call_free true] |}.
Proof.
  split; [concrete|]. split; [concrete|]. split; [concrete|].
  reflexivity.
Defined.

(** * Further properties of the two SQL functions *)

Section Further.
Context {codec : Zstd} {heap : Heap}.
Implicit Types P L SZ : sqlite3_value.

(** Case analysis along the paths of [sqlarCompressFunc P L]. *)
Ltac compress_paths P L :=
  let Ht := fresh "Ht" in
  let Hm := fresh "Hm" in
  let Hc := fresh "Hc" in
  let dst := fresh "dst" in
  let code := fresh "code" in
  destruct (datatype_eqb (sqlite3_value_type P) SQLITE_BLOB) eqn:Ht;
  [ apply datatype_eqb_eq in Ht;
    destruct (malloc_succeeds (scratch P)) eqn:Hm;
    [ destruct (compressed P L) as [dst|code] eqn:Hc;
      [ rewrite (compress_codec_ok P L dst Ht Hm Hc)
      | rewrite (compress_codec_error P L code Ht Hm Hc) ]
    | rewrite (compress_nomem P L Ht Hm) ]
  | apply datatype_eqb_neq in Ht; rewrite (compress_not_blob P L Ht) ].

(** Case analysis along the paths of [sqlarUncompressFunc P SZ]. *)
Ltac uncompress_paths P SZ :=
  let Hraw := fresh "Hraw" in
  let Hpos := fresh "Hpos" in
  let Hne := fresh "Hne" in
  let Hm := fresh "Hm" in
  let Hl := fresh "Hl" in
  destruct (Z_le_gt_dec (sqlite3_value_int SZ) 0) as [Hraw|Hpos];
  [ rewrite (uncompress_raw P SZ (or_introl Hraw))
  | apply Z.gt_lt in Hpos;
    destruct (Z.eq_dec (sqlite3_value_int SZ) (sqlite3_value_bytes P))
      as [Hraw|Hne];
    [ rewrite (uncompress_raw P SZ (or_intror Hraw))
    | destruct (malloc_succeeds (sqlite3_value_int SZ)) eqn:Hm;
      [ destruct (looks_compressed P) eqn:Hl;
        [ rewrite (uncompress_zstd P SZ Hpos Hne Hm Hl)
        | rewrite (uncompress_not_zstd P SZ Hpos Hne Hm Hl) ]
      | rewrite (uncompress_nomem P SZ Hpos Hne Hm) ] ] ].

(** X1: an argument that is not a blob (text, integer, float, NULL) is
    returned as it is by [sqlar_compress], whatever the level, the codec and
    the allocator: no library call is made. *)
Theorem compress_leaves_non_blobs P L :
  sqlite3_value_type P <> SQLITE_BLOB ->
  let w := exec (sqlarCompressFunc P L) in
  context w = Some (ResultValue P) /\ trace w = [].
Proof.
  intros Ht w. subst w. rewrite (compress_not_blob P L Ht). now split.
Qed.

(** X2: when the scratch buffer of [sqlar_compress] cannot be allocated the
    call ends in the out-of-memory error; the allocation is its only library
    call: the codec is not called and nothing is freed. *)
Theorem compress_allocation_failure P L :
  sqlite3_value_type P = SQLITE_BLOB ->
  malloc_succeeds (scratch P) = false ->
  let w := exec (sqlarCompressFunc P L) in
  context w = Some ResultErrorNomem
  /\ delivered w = None
  /\ trace w = [Call_malloc (scratch P)].
Proof.
  intros Ht Hm w. subst w. rewrite (compress_nomem P L Ht Hm). now repeat split.
Qed.

(** X3: [sqlar_compress] never grows its argument: a call that does not fail
    hands back either the bytes of its argument or strictly fewer bytes. *)
Theorem compress_never_grows P L :
  let w := exec (sqlarCompressFunc P L) in
  failed w = false ->
  exists out,
    delivered w = Some out
    /\ (out = sqlite3_value_blob P
        \/ Z.of_nat (length out) < sqlite3_value_bytes P).
Proof.
  cbv zeta. compress_paths P L; unfold failed, delivered; cbn [context];
    try discriminate; intros _.
  - destruct (Z.ltb_spec (Z.of_nat (length dst)) (sqlite3_value_bytes P));
      destruct (negb (effective_level (sqlite3_value_int L) =? 0));
      cbn [andb]; eexists; split; try reflexivity; auto.
  - eexists; split; [reflexivity | now left].
Qed.

(** X4: when the codec's default level is not above its maximum, the codec
    is never called with a level above the maximum. *)
Theorem compress_level_capped P L cap src n lvl :
  ZSTD_CLEVEL_DEFAULT <= ZSTD_maxCLevel ->
  In (Call_compress cap src n lvl) (trace (exec (sqlarCompressFunc P L))) ->
  lvl <= ZSTD_maxCLevel.
Proof.
  intros Hdef.
  assert (Hcap : effective_level (sqlite3_value_int L) <= ZSTD_maxCLevel).
  { unfold effective_level.
    destruct (Z.eqb_spec (sqlite3_value_int L) (-1)); [assumption|].
    destruct (Z.gtb_spec (sqlite3_value_int L) ZSTD_maxCLevel); lia. }
  compress_paths P L; cbn [trace]; unfold compress_call;
    intros H; repeat (destruct H as [H|H]; try discriminate H);
    try contradiction; inversion H; subst; assumption.
Qed.

(** X5: a level other than -1 that is not above the codec's maximum reaches
    the codec as it was given, negative levels included. *)
Theorem compress_level_passed_on P L :
  sqlite3_value_int L <> -1 ->
  sqlite3_value_int L <= ZSTD_maxCLevel ->
  sqlite3_value_type P = SQLITE_BLOB ->
  malloc_succeeds (scratch P) = true ->
  trace (exec (sqlarCompressFunc P L)) =
  [Call_malloc (scratch P);
   Call_compress (ZSTD_compressBound (sqlite3_value_bytes P))
     (sqlite3_value_blob P) (sqlite3_value_bytes P) (sqlite3_value_int L);
   Call_free true].
Proof.
  intros Hne Hle Ht Hm.
  pose proof (effective_level_within _ Hne Hle) as Hlvl.
  destruct (compressed P L) as [dst|code] eqn:Hc.
  - rewrite (compress_codec_ok P L dst Ht Hm Hc). cbn [trace].
    unfold compress_call. now rewrite Hlvl.
  - rewrite (compress_codec_error P L code Ht Hm Hc). cbn [trace].
    unfold compress_call. now rewrite Hlvl.
Qed.

(** X6: when the payload passes the signature test and the codec's
    decompression routine reports an error, [sqlar_uncompress] ends in the
    error "error in uncompress()", hands back no bytes, and has freed the
    output buffer. *)
Theorem uncompress_error_is_surfaced P SZ code :
  0 < sqlite3_value_int SZ ->
  sqlite3_value_int SZ <> sqlite3_value_bytes P ->
  malloc_succeeds (sqlite3_value_int SZ) = true ->
  4 < sqlite3_value_bytes P ->
  nth 0 (sqlite3_value_blob P) x00 = MAGIC_ZSTD_0 ->
  decompressed P SZ = ZSTD_error code ->
  let w := exec (sqlarUncompressFunc P SZ) in
  context w = Some (ResultError "error in uncompress()")
  /\ delivered w = None
  /\ trace w = [Call_malloc (sqlite3_value_int SZ); decompress_call P SZ;
                Call_free true].
Proof.
  intros Hpos Hne Hm Hlen Hmagic Hd w. subst w.
  rewrite uncompress_zstd; try assumption.
  - rewrite Hd. now repeat split.
  - apply looks_compressed_true. now split.
Qed.

(** X7: when the payload passes the signature test and the codec succeeds,
    [sqlar_uncompress] hands back exactly the bytes the codec wrote; their
    number is not compared with the declared size, which only sizes the
    output buffer. *)
Theorem uncompress_returns_codec_bytes P SZ out :
  0 < sqlite3_value_int SZ ->
  sqlite3_value_int SZ <> sqlite3_value_bytes P ->
  malloc_succeeds (sqlite3_value_int SZ) = true ->
  4 < sqlite3_value_bytes P ->
  nth 0 (sqlite3_value_blob P) x00 = MAGIC_ZSTD_0 ->
  decompressed P SZ = ZSTD_ok out ->
  let w := exec (sqlarUncompressFunc P SZ) in
  context w = Some (ResultBlob out)
  /\ trace w = [Call_malloc (sqlite3_value_int SZ); decompress_call P SZ;
                Call_free true].
Proof.
  intros Hpos Hne Hm Hlen Hmagic Hd w. subst w.
  rewrite uncompress_zstd; try assumption.
  - rewrite Hd. now split.
  - apply looks_compressed_true. now split.
Qed.



(** X10: whenever [sqlar_uncompress] calls the decompression routine, the
    capacity it announces is the declared size, which is the size of the
    buffer it has just allocated with success, and the source is the
    payload. *)
Theorem uncompress_capacity_is_allocation P SZ cap src n :
  let w := exec (sqlarUncompressFunc P SZ) in
  In (Call_decompress cap src n) (trace w) ->
  cap = sqlite3_value_int SZ
  /\ src = sqlite3_value_blob P
  /\ n = sqlite3_value_bytes P
  /\ In (Call_malloc cap) (trace w)
  /\ malloc_succeeds cap = true.
Proof.
  cbv zeta. uncompress_paths P SZ; cbn [trace]; unfold decompress_call;
    intros H; repeat (destruct H as [H|H]; try discriminate H);
    try contradiction.
  inversion H; subst. repeat split; try assumption. now left.
Qed.

(** X11: when the codec's bound for the payload fits the C type [int],
    whenever [sqlar_compress] calls the compression routine the capacity it
    announces is the size of the buffer it has just allocated with
    success. *)
Theorem compress_capacity_is_allocation P L cap src n lvl :
  - 2 ^ 31 <= ZSTD_compressBound (sqlite3_value_bytes P) < 2 ^ 31 ->
  let w := exec (sqlarCompressFunc P L) in
  In (Call_compress cap src n lvl) (trace w) ->
  cap = ZSTD_compressBound (sqlite3_value_bytes P)
  /\ src = sqlite3_value_blob P
  /\ In (Call_malloc cap) (trace w)
  /\ malloc_succeeds cap = true.
Proof.
  intros Hfit. cbv zeta.
  assert (Hs : scratch P = ZSTD_compressBound (sqlite3_value_bytes P))
    by (apply to_int_small; assumption).
  compress_paths P L; cbn [trace]; unfold compress_call;
    intros H; repeat (destruct H as [H|H]; try discriminate H);
    try contradiction;
    inversion H; subst; rewrite Hs in *;
    (repeat split; [now left | assumption]).
Qed.

(** X12: every call of either function leaves a result or an error in its
    context. *)
Theorem result_is_always_set P L SZ :
  (exists r, context (exec (sqlarCompressFunc P L)) = Some r)
  /\ (exists r, context (exec (sqlarUncompressFunc P SZ)) = Some r).
Proof.
  split.
  - compress_paths P L; cbn [context]; eexists; reflexivity.
  - uncompress_paths P SZ; cbn [context]; eexists; reflexivity.
Qed.

(** X13: the round trip needs nothing of the codec when the argument is not
    a blob, has no bytes, or is compressed at an effective level of 0: a
    call of [sqlar_compress] that does not fail returns its argument, and
    [sqlar_uncompress] of that argument with its byte length as declared
    size returns it again without any library call. *)
Theorem roundtrip_without_codec P L SZ :
  sqlite3_value_type P <> SQLITE_BLOB
  \/ sqlite3_value_blob P = []
  \/ effective_level (sqlite3_value_int L) = 0 ->
  sqlite3_value_int SZ = sqlite3_value_bytes P ->
  failed (exec (sqlarCompressFunc P L)) = false ->
  context (exec (sqlarCompressFunc P L)) = Some (ResultValue P)
  /\ exec (sqlarUncompressFunc P SZ)
     = {| context := Some (ResultValue P); trace := [] |}.
Proof.
  intros Hkeep HSZ Hok. split.
  - destruct Hkeep as [Ht|Hkeep].
    + now rewrite (compress_not_blob P L Ht).
    + rewrite compress_keeps_argument; [reflexivity | tauto | assumption].
  - apply uncompress_raw. now right.
Qed.

End Further.

(** * The extension entry point *)

Section InitProperties.
Context {codec : Zstd} {heap : Heap} {api : Sqlite3}.

Lemma sqlar_init_unfold (db : list create_function_call) :
  sqlite3_sqlar_init db =
  if create_function_rc register_compress =? SQLITE_OK
  then (create_function_rc register_uncompress,
        db ++ [register_compress; register_uncompress])
  else (create_function_rc register_compress, db ++ [register_compress]).
Proof.
  unfold sqlite3_sqlar_init, sqlite3_create_function.
  fold register_compress. fold register_uncompress.
  destruct (create_function_rc register_compress =? SQLITE_OK);
    [|reflexivity].
  rewrite <- app_assoc. reflexivity.
Qed.

(** X14: [sqlite3_sqlar_init] returns SQLITE_OK exactly when both
    registrations succeed, and it has then registered, in this order,
    "sqlar_compress" and "sqlar_uncompress", each with two arguments and
    bound to its own implementation. *)
Theorem sqlar_init_succeeds_iff (db : list create_function_call) :
  (fst (sqlite3_sqlar_init db) = SQLITE_OK <->
   create_function_rc register_compress = SQLITE_OK
   /\ create_function_rc register_uncompress = SQLITE_OK)
  /\ (fst (sqlite3_sqlar_init db) = SQLITE_OK ->
      snd (sqlite3_sqlar_init db)
      = db ++ [mk_create_function "sqlar_compress" 2
                 (Z.lor SQLITE_UTF8 SQLITE_INNOCUOUS) sqlarCompressFunc;
               mk_create_function "sqlar_uncompress" 2
                 (Z.lor SQLITE_UTF8 SQLITE_INNOCUOUS) sqlarUncompressFunc]).
Proof.
  rewrite sqlar_init_unfold.
  destruct (Z.eqb_spec (create_function_rc register_compress) SQLITE_OK)
    as [H1|H1]; cbn [fst snd].
  - split; [tauto | reflexivity].
  - split; [tauto | contradiction].
Qed.

(** X15: [sqlite3_sqlar_init] stops at the first registration that fails and
    returns its code: when "sqlar_compress" cannot be registered,
    "sqlar_uncompress" is not attempted; when "sqlar_compress" was
    registered, the code returned is that of registering "sqlar_uncompress",
    and the first registration is left in place. *)
Theorem sqlar_init_stops_at_first_failure (db : list create_function_call) :
  (create_function_rc register_compress <> SQLITE_OK ->
   sqlite3_sqlar_init db
   = (create_function_rc register_compress, db ++ [register_compress]))
  /\ (create_function_rc register_compress = SQLITE_OK ->
      sqlite3_sqlar_init db
      = (create_function_rc register_uncompress,
         db ++ [register_compress; register_uncompress])).
Proof.
  rewrite sqlar_init_unfold.
  destruct (Z.eqb_spec (create_function_rc register_compress) SQLITE_OK)
    as [H1|H1]; split; intros H; try reflexivity; contradiction.
Qed.

End InitProperties.

(** ** The further properties at concrete inputs *)

Lemma compress_leaves_non_blobs_witness :
  sqlite3_value_type text_twenty_a <> SQLITE_BLOB
  /\ context (exec (@sqlarCompressFunc Toy.zstd Toy.roomy
                      text_twenty_a (Toy.integer 3)))
     = Some (ResultValue text_twenty_a)
  /\ trace (exec (@sqlarCompressFunc Toy.zstd Toy.roomy
                    text_twenty_a (Toy.integer 3))) = [].
Proof.
  split; [concrete|].
  apply (@compress_leaves_non_blobs Toy.zstd Toy.roomy
           text_twenty_a (Toy.integer 3)).
  concrete.
Defined.

Lemma compress_allocation_failure_witness :
  @malloc_succeeds Toy.exhausted (@scratch Toy.zstd (Toy.blob Toy.twenty_a))
  = false
  /\ context (exec (@sqlarCompressFunc Toy.zstd Toy.exhausted
                      (Toy.blob Toy.twenty_a) (Toy.integer 3)))
     = Some ResultErrorNomem
  /\ delivered (exec (@sqlarCompressFunc Toy.zstd Toy.exhausted
                        (Toy.blob Toy.twenty_a) (Toy.integer 3))) = None
  /\ trace (exec (@sqlarCompressFunc Toy.zstd Toy.exhausted
                    (Toy.blob Toy.twenty_a) (Toy.integer 3)))
     = [Call_malloc 45].
Proof.
  split; [concrete|].
  apply (@compress_allocation_failure Toy.zstd Toy.exhausted
           (Toy.blob Toy.twenty_a) (Toy.integer 3)); concrete.
Defined.

Lemma compress_never_grows_witness :
  failed (exec (@sqlarCompressFunc Toy.zstd Toy.roomy
                  (Toy.blob Toy.twenty_a) (Toy.integer 3))) = false
  /\ exists out,
       delivered (exec (@sqlarCompressFunc Toy.zstd Toy.roomy
                          (Toy.blob Toy.twenty_a) (Toy.integer 3)))
       = Some out
       /\ (out = Toy.twenty_a \/ Z.of_nat (length out) < 20).
Proof.
  split; [concrete|].
  apply (@compress_never_grows Toy.zstd Toy.roomy
           (Toy.blob Toy.twenty_a) (Toy.integer 3)).
  concrete.
Defined.

Lemma compress_level_capped_witness :
  In (Call_compress 45 Toy.twenty_a 20 22)
     (trace (exec (@sqlarCompressFunc Toy.zstd Toy.roomy
                     (Toy.blob Toy.twenty_a) (Toy.integer 100))))
  /\ 22 <= @ZSTD_maxCLevel Toy.zstd.
Proof.
  assert (Hin : In (Call_compress 45 Toy.twenty_a 20 22)
                  (trace (exec (@sqlarCompressFunc Toy.zstd Toy.roomy
                                  (Toy.blob Toy.twenty_a) (Toy.integer 100)))))
    by (right; left; reflexivity).
  split; [exact Hin|].
  refine (@compress_level_capped Toy.zstd Toy.roomy
            (Toy.blob Toy.twenty_a) (Toy.integer 100)
            45 Toy.twenty_a 20 22 _ Hin).
  concrete.
Defined.

Lemma compress_level_passed_on_witness :
  sqlite3_value_int (Toy.integer (-5)) <> -1
  /\ sqlite3_value_int (Toy.integer (-5)) <= @ZSTD_maxCLevel Toy.zstd
  /\ trace (exec (@sqlarCompressFunc Toy.zstd Toy.roomy
                    (Toy.blob Toy.twenty_a) (Toy.integer (-5))))
     = [Call_malloc 45; Call_compress 45 Toy.twenty_a 20 (-5);
        Call_free true].
Proof.
  split; [concrete|]. split; [concrete|].
  apply (@compress_level_passed_on Toy.zstd Toy.roomy
           (Toy.blob Toy.twenty_a) (Toy.integer (-5))); concrete.
Defined.

Lemma uncompress_error_is_surfaced_witness :
  @decompressed Toy.zstd (Toy.blob Toy.stray) (Toy.integer 10)
  = ZSTD_error 10
  /\ context (exec (@sqlarUncompressFunc Toy.zstd Toy.roomy
                      (Toy.blob Toy.stray) (Toy.integer 10)))
     = Some (ResultError "error in uncompress()").
Proof.
  split; [concrete|].
  refine (proj1 (@uncompress_error_is_surfaced Toy.zstd Toy.roomy
                   (Toy.blob Toy.stray) (Toy.integer 10) 10 _ _ _ _ _ _));
    concrete.
Defined.

Lemma uncompress_returns_codec_bytes_witness :
  sqlite3_value_int (Toy.integer 30) = 30
  /\ @decompressed Toy.zstd (Toy.blob Toy.twenty_a_frame) (Toy.integer 30)
     = ZSTD_ok Toy.twenty_a
  /\ length Toy.twenty_a = 20%nat
  /\ context (exec (@sqlarUncompressFunc Toy.zstd Toy.roomy
                      (Toy.blob Toy.twenty_a_frame) (Toy.integer 30)))
     = Some (ResultBlob Toy.twenty_a).
Proof.
  split; [concrete|]. split; [concrete|]. split; [concrete|].
  refine (proj1 (@uncompress_returns_codec_bytes Toy.zstd Toy.roomy
                   (Toy.blob Toy.twenty_a_frame) (Toy.integer 30)
                   Toy.twenty_a _ _ _ _ _ _));
    concrete.
Defined.

Lemma uncompress_capacity_is_allocation_witness :
  In (Call_decompress 20 Toy.twenty_a_frame 7)
     (trace (exec (@sqlarUncompressFunc Toy.zstd Toy.roomy
                     (Toy.blob Toy.twenty_a_frame) (Toy.integer 20))))
  /\ In (Call_malloc 20)
        (trace (exec (@sqlarUncompressFunc Toy.zstd Toy.roomy
                        (Toy.blob Toy.twenty_a_frame) (Toy.integer 20))))
  /\ @malloc_succeeds Toy.roomy 20 = true.
Proof.
  assert (Hin : In (Call_decompress 20 Toy.twenty_a_frame 7)
                  (trace (exec (@sqlarUncompressFunc Toy.zstd Toy.roomy
                                  (Toy.blob Toy.twenty_a_frame)
                                  (Toy.integer 20)))))
    by (right; left; reflexivity).
  split; [exact Hin|].
  exact (proj2 (proj2 (proj2
           (@uncompress_capacity_is_allocation Toy.zstd Toy.roomy
              (Toy.blob Toy.twenty_a_frame) (Toy.integer 20)
              20 Toy.twenty_a_frame 7 Hin)))).
Defined.

Lemma compress_capacity_is_allocation_witness :
  - 2 ^ 31 <= @ZSTD_compressBound Toy.zstd
                (sqlite3_value_bytes (Toy.blob Toy.twenty_a)) < 2 ^ 31
  /\ In (Call_compress 45 Toy.twenty_a 20 3)
        (trace (exec (@sqlarCompressFunc Toy.zstd Toy.roomy
                        (Toy.blob Toy.twenty_a) (Toy.integer 3))))
  /\ In (Call_malloc 45)
        (trace (exec (@sqlarCompressFunc Toy.zstd Toy.roomy
                        (Toy.blob Toy.twenty_a) (Toy.integer 3))))
  /\ @malloc_succeeds Toy.roomy 45 = true.
Proof.
  assert (Hfit : - 2 ^ 31 <= @ZSTD_compressBound Toy.zstd
                   (sqlite3_value_bytes (Toy.blob Toy.twenty_a)) < 2 ^ 31)
    by (split; concrete).
  assert (Hin : In (Call_compress 45 Toy.twenty_a 20 3)
                  (trace (exec (@sqlarCompressFunc Toy.zstd Toy.roomy
                                  (Toy.blob Toy.twenty_a) (Toy.integer 3)))))
    by (right; left; reflexivity).
  split; [exact Hfit|]. split; [exact Hin|].
  exact (proj2 (proj2
           (@compress_capacity_is_allocation Toy.zstd Toy.roomy
              (Toy.blob Toy.twenty_a) (Toy.integer 3)
              45 Toy.twenty_a 20 3 Hfit Hin))).
Defined.

Lemma roundtrip_without_codec_witness :
  sqlite3_value_type text_twenty_a <> SQLITE_BLOB
  /\ sqlite3_value_int (Toy.integer 20) = sqlite3_value_bytes text_twenty_a
  /\ context (exec (@sqlarCompressFunc Toy.zstd Toy.roomy
                      text_twenty_a (Toy.integer 3)))
     = Some (ResultValue text_twenty_a)
  /\ exec (@sqlarUncompressFunc Toy.zstd Toy.roomy
             text_twenty_a (Toy.integer 20))
     = {| context := Some (ResultValue text_twenty_a); trace := [] |}.
Proof.
  split; [concrete|]. split; [concrete|].
  apply (@roundtrip_without_codec Toy.zstd Toy.roomy
           text_twenty_a (Toy.integer 3) (Toy.integer 20)).
  - left. concrete.
  - concrete.
  - concrete.
Defined.

Lemma sqlar_init_stops_at_first_failure_witness :
  @create_function_rc (host ["sqlar_compress"%string])
    (@register_compress Toy.zstd Toy.roomy (host ["sqlar_compress"%string]))
  <> @SQLITE_OK (host ["sqlar_compress"%string])
  /\ @sqlite3_sqlar_init Toy.zstd Toy.roomy (host ["sqlar_compress"%string]) []
     = (7, [@register_compress Toy.zstd Toy.roomy
              (host ["sqlar_compress"%string])]).
Proof.
  split; [concrete|].
  refine (proj1 (@sqlar_init_stops_at_first_failure Toy.zstd Toy.roomy
                   (host ["sqlar_compress"%string]) []) _).
  concrete.
Defined.

Lemma sqlar_init_succeeds_iff_witness :
  fst (@sqlite3_sqlar_init Toy.zstd Toy.roomy (host []) [])
  = @SQLITE_OK (host [])
  /\ snd (@sqlite3_sqlar_init Toy.zstd Toy.roomy (host []) [])
     = [@register_compress Toy.zstd Toy.roomy (host []);
        @register_uncompress Toy.zstd Toy.roomy (host [])].
Proof.
  assert (Hok : fst (@sqlite3_sqlar_init Toy.zstd Toy.roomy (host []) [])
                = @SQLITE_OK (host [])) by reflexivity.
  split; [exact Hok|].
  exact (proj2 (@sqlar_init_succeeds_iff Toy.zstd Toy.roomy (host []) [])
           Hok).
Defined.
